(** * Verification of the searchAgent memory manager, search wrapper and
      ReAct query loop (src/memory_manager.py, src/search_tools.py,
      src/react_agent.py).

    Shallow embedding: Python strings are [string], Python ints are [Z],
    lists are [list], the LangChain message classes are the constructors of
    [message].  The chat-history file is an [option (list entry)]: [None]
    stands for "absent or not parseable as JSON" (both load nothing).
    File writes are modelled as succeeding: the [try/except] of
    [_save_memory] only catches I/O and serialisation errors, and the
    contents written are plain strings. *)

From Stdlib Require Import String Ascii List ZArith Bool Lia.
Import ListNotations.
Open Scope string_scope.
Open Scope Z_scope.

(** ** Python helpers *)

(** [l[i:]] for a Python int [i] (negative indices count from the end). *)
Definition py_slice_from {A} (i : Z) (l : list A) : list A :=
  let n := Z.of_nat (length l) in
  if i <? 0 then skipn (Z.to_nat (Z.max 0 (n + i))) l
  else skipn (Z.to_nat i) l.

(** Truthiness of a Python [str]. *)
Definition py_truthy (s : string) : bool :=
  negb (String.eqb s "").

(** [sub in s] for Python strings. *)
Definition py_contains (sub s : string) : bool :=
  match String.index 0 sub s with Some _ => true | None => false end.

Definition nl : string := String (ascii_of_nat 10) EmptyString.

(** ** Messages (langchain_core.messages) *)

Record tool_call := mk_tool_call {
  tc_name : string;
  tc_query : option string;     (* args.get('query') *)
  tc_timezone : option string;  (* args.get('timezone') *)
  tc_id : string
}.

Inductive message :=
| SystemMessage (content : string)
| HumanMessage (content : string)
| AIMessage (content : string) (tool_calls : list tool_call)
| ToolMessage (content : string) (tool_call_id : string).

(** ** MemoryManager (src/memory_manager.py) *)

(** One element of the JSON list [data["messages"]]: a missing key is
    [None]. *)
Record entry := mk_entry {
  e_role : option string;
  e_content : option string
}.

Record memory_manager := mk_mm {
  max_length : Z;
  save_to_file : bool;
  messages : list message;
  memory_file : option (list entry)
}.

(** [_save_memory]: serialise the whole log; Human, AI and System
    messages are written, anything else is skipped. *)
Fixpoint save_entries (ms : list message) : list entry :=
  match ms with
  | [] => []
  | HumanMessage c :: r => mk_entry (Some "user") (Some c) :: save_entries r
  | AIMessage c _ :: r => mk_entry (Some "assistant") (Some c) :: save_entries r
  | SystemMessage c :: r => mk_entry (Some "system") (Some c) :: save_entries r
  | ToolMessage _ _ :: r => save_entries r
  end.

Definition _save_memory (mm : memory_manager) : memory_manager :=
  {| max_length := max_length mm; save_to_file := save_to_file mm;
     messages := messages mm; memory_file := Some (save_entries (messages mm)) |}.

(** The [for msg in data.get("messages", [])] loop of [_load_memory]:
    a [KeyError] on [msg["role"]] or [msg["content"]] leaves the loop,
    the [except] keeps what was appended so far. *)
Fixpoint replay (es : list entry) (acc : list message) : list message :=
  match es with
  | [] => acc
  | e :: r =>
      match e_role e with
      | None => acc
      | Some role =>
          if String.eqb role "user" then
            match e_content e with
            | None => acc
            | Some c => replay r (acc ++ [HumanMessage c])
            end
          else if String.eqb role "assistant" then
            match e_content e with
            | None => acc
            | Some c => replay r (acc ++ [AIMessage c []])
            end
          else replay r acc
      end
  end.

Definition _load_memory (file : option (list entry)) (acc : list message)
  : list message :=
  match file with
  | None => acc
  | Some es => replay es acc
  end.

(** [MemoryManager.__init__] reading the file currently on disk. *)
Definition MemoryManager (ml : Z) (stf : bool) (file : option (list entry))
  : memory_manager :=
  {| max_length := ml; save_to_file := stf;
     messages := if stf then _load_memory file [] else [];
     memory_file := file |}.

Definition append_message (mm : memory_manager) (m : message) : memory_manager :=
  let mm' := {| max_length := max_length mm; save_to_file := save_to_file mm;
                messages := messages mm ++ [m]; memory_file := memory_file mm |} in
  if save_to_file mm then _save_memory mm' else mm'.

Definition add_user_message (mm : memory_manager) (s : string) : memory_manager :=
  append_message mm (HumanMessage s).

Definition add_ai_message (mm : memory_manager) (s : string) : memory_manager :=
  append_message mm (AIMessage s []).

Definition get_memory (mm : memory_manager) : list message :=
  if Z.of_nat (length (messages mm)) >? max_length mm * 2
  then py_slice_from (- (max_length mm * 2)) (messages mm)
  else messages mm.

(** ** SearchToolWrapper.search (src/search_tools.py) *)

(** What [self.tool.run(query)] does: return text or raise with a detail. *)
Inductive provider_outcome :=
| ProviderReturns (text : string)
| ProviderRaises (detail : string).

Definition search (provider : string -> provider_outcome) (query : string)
  : string :=
  match provider query with
  | ProviderReturns t => t
  | ProviderRaises e => "Search error: " ++ e
  end.

(** ** SearchAgent.query (src/react_agent.py) *)

(** How [self.llm.invoke] was called: with [tools=self.tools,
    tool_choice="auto"] inside the loop, or with the messages only. *)
Inductive invoke_mode := ToolsAuto | NoTools.

(** What one [self.llm.invoke] does: raise, or return an [AIMessage]. *)
Inductive llm_outcome :=
| LLMRaises (detail : string)
| LLMReturns (content : string) (tool_calls : list tool_call).

(** Observable actions of one query, in order.  [Invoked] also records the
    value of [search_count] at the time of the call. *)
Inductive event :=
| Invoked (mode : invoke_mode) (search_count_then : Z)
| SearchExecuted (query : string)
| TimeExecuted (timezone : string).

Definition max_searches : Z := 2.

(** Local state of the [while] loop. *)
Record lstate := mk_ls {
  window : list message;      (* the local [messages] list *)
  search_count : Z;
  iteration : Z;
  ncalls : nat;               (* invocations of the model so far *)
  trace : list event
}.

Definition ls_log (ls : lstate) (ev : event) : lstate :=
  mk_ls (window ls) (search_count ls) (iteration ls) (ncalls ls) (trace ls ++ [ev]).

Definition ls_invoked (ls : lstate) (m : invoke_mode) : lstate :=
  mk_ls (window ls) (search_count ls) (iteration ls) (S (ncalls ls))
        (trace ls ++ [Invoked m (search_count ls)]).

Definition ls_push (ls : lstate) (ms : list message) : lstate :=
  mk_ls (window ls ++ ms) (search_count ls) (iteration ls) (ncalls ls) (trace ls).

Definition ls_count_search (ls : lstate) : lstate :=
  mk_ls (window ls) (search_count ls + 1) (iteration ls) (ncalls ls) (trace ls).

Definition ls_next_iteration (ls : lstate) : lstate :=
  mk_ls (window ls) (search_count ls) (iteration ls + 1) (ncalls ls) (trace ls).

(** How one query ended: [return final_response] or the [except] branch. *)
Inductive query_end := EndAnswer (c : string) | EndError (detail : string).

Definition error_message (detail : string) : string :=
  "Sorry, an error occurred while processing your request: " ++ detail.

Inductive loop_result :=
| LoopRaised (detail : string) (ls : lstate)
| LoopAnswered (content : string) (ls : lstate)
| LoopExhausted (ls : lstate).

Section Query.

(** The model: the answer to the [n]-th invocation on a message list in a
    mode.  The search provider behind [self.search_tool], the clock tool,
    the regex part of [_parse_text_tool_call] and the system prompt are
    left abstract: every statement below holds for all of them. *)
Variable llm : nat -> list message -> invoke_mode -> llm_outcome.
Variable provider : string -> provider_outcome.
Variable get_current_time : string -> string.
Variable text_tool_regex : string -> option string.
Variable SYSTEM_PROMPT : string.

Definition _parse_text_tool_call (content : string) : option string :=
  if negb (py_truthy content) || negb (py_contains "<tool_call>" content)
  then None
  else text_tool_regex content.

(** The [for tool_call in response.tool_calls] loop; the boolean is
    [search_performed]. *)
Fixpoint scan_tool_calls (response : message) (calls : list tool_call)
    (ls : lstate) : lstate * bool :=
  match calls with
  | [] => (ls, false)
  | tc :: rest =>
      if String.eqb (tc_name tc) "search_web" && (search_count ls <? max_searches)
      then
        let search_query := match tc_query tc with Some q => q | None => "" end in
        let search_results := search provider search_query in
        let ls1 := ls_log ls (SearchExecuted search_query) in
        let ls2 := ls_push ls1 [response;
                     ToolMessage ("Search results: " ++ search_results) (tc_id tc)] in
        (ls_count_search ls2, true)
      else if String.eqb (tc_name tc) "search_web" && (search_count ls >=? max_searches)
      then (ls, false)
      else if String.eqb (tc_name tc) "get_current_time" then
        let timezone := match tc_timezone tc with Some z => z | None => "Asia/Shanghai" end in
        let time_result := get_current_time timezone in
        let ls1 := ls_log ls (TimeExecuted timezone) in
        (ls_push ls1 [response; ToolMessage time_result (tc_id tc)], true)
      else scan_tool_calls response rest ls
  end.

(** Lines 249-339: structured tool calls, else the text fallback. *)
Definition handle_response (content : string) (calls : list tool_call)
    (ls : lstate) : lstate * bool :=
  match calls with
  | _ :: _ => scan_tool_calls (AIMessage content calls) calls ls
  | [] =>
      if (search_count ls <? max_searches) && py_truthy content then
        match _parse_text_tool_call content with
        | Some search_query =>
            if py_truthy search_query then
              let search_results := search provider search_query in
              let ls1 := ls_log ls (SearchExecuted search_query) in
              let ls2 := ls_push ls1
                  [AIMessage content calls;
                   AIMessage (nl ++ "Search results: " ++ search_results ++ nl ++ nl
                              ++ "Based on these results, please provide the answer:") []] in
              (ls_count_search ls2, true)
            else (ls, false)
        | None => (ls, false)
        end
      else (ls, false)
  end.

(** [while iteration < max_iterations]: [iteration] starts at 0 and grows
    by one per pass, so the loop makes [Z.to_nat max_iterations] passes at
    most; [fuel] counts the passes left. *)
Fixpoint agent_loop (fuel : nat) (ls : lstate) : loop_result :=
  match fuel with
  | O => LoopExhausted ls
  | S f =>
      let ls := ls_next_iteration ls in
      let outcome := llm (ncalls ls) (window ls) ToolsAuto in
      let ls := ls_invoked ls ToolsAuto in
      match outcome with
      | LLMRaises e => LoopRaised e ls
      | LLMReturns content calls =>
          let '(ls', search_performed) := handle_response content calls ls in
          if search_performed then agent_loop f ls'
          else LoopAnswered content ls'
      end
  end.

Definition query_run (mm : memory_manager) (user_input : string)
    (max_iterations : Z) : memory_manager * query_end * list event :=
  let chat_history := get_memory mm in
  let mm1 := add_user_message mm user_input in
  (* [get_memory] returns [self.messages] itself when it is not sliced, so
     the list held in [chat_history] then also sees the appended message *)
  let chat_history :=
    if Z.of_nat (length (messages mm)) >? max_length mm * 2
    then chat_history else messages mm1 in
  let msgs := ([SystemMessage SYSTEM_PROMPT] ++ py_slice_from (-6) chat_history
              ++ [HumanMessage user_input])%list in
  let ls0 := mk_ls msgs 0 0 O [] in
  match agent_loop (Z.to_nat max_iterations) ls0 with
  | LoopRaised e ls => (mm1, EndError e, trace ls)
  | LoopAnswered final_response ls =>
      (add_ai_message mm1 final_response, EndAnswer final_response, trace ls)
  | LoopExhausted ls =>
      let tr := (trace ls ++ [Invoked NoTools (search_count ls)])%list in
      match llm (ncalls ls) (window ls) NoTools with
      | LLMRaises e => (mm1, EndError e, tr)
      | LLMReturns final_response _ =>
          (add_ai_message mm1 final_response, EndAnswer final_response, tr)
      end
  end.

(** [query] returns the final content, or the apology of the [except]. *)
Definition query (mm : memory_manager) (user_input : string)
    (max_iterations : Z) : memory_manager * string * list event :=
  let '(mm', e, tr) := query_run mm user_input max_iterations in
  (mm', match e with EndAnswer c => c | EndError d => error_message d end, tr).

End Query.

Open Scope list_scope.

(** ** Memory operations as a sequence *)

Inductive mem_op := AddUser (s : string) | AddAI (s : string).

Definition apply_op (mm : memory_manager) (op : mem_op) : memory_manager :=
  match op with
  | AddUser s => add_user_message mm s
  | AddAI s => add_ai_message mm s
  end.

Definition run_ops (mm : memory_manager) (ops : list mem_op) : memory_manager :=
  fold_left apply_op ops mm.

(** Messages that [_load_memory] can produce. *)
Definition loadable (m : message) : Prop :=
  match m with
  | HumanMessage _ => True
  | AIMessage _ [] => True
  | _ => False
  end.

Definition is_system (m : message) : bool :=
  match m with SystemMessage _ => true | _ => false end.

(** ** Lemmas on the memory manager *)

Lemma replay_app (es : list entry) (acc : list message) :
  replay es acc = acc ++ replay es [].
Proof.
  revert acc; induction es as [|e r IH]; intros acc; simpl.
  - now rewrite app_nil_r.
  - destruct (e_role e) as [role|]; [|now rewrite app_nil_r].
    destruct (String.eqb role "user").
    + destruct (e_content e) as [c|]; [|now rewrite app_nil_r].
      rewrite IH, (IH [HumanMessage c]); now rewrite app_assoc.
    + destruct (String.eqb role "assistant").
      * destruct (e_content e) as [c|]; [|now rewrite app_nil_r].
        rewrite IH, (IH [AIMessage c []]); now rewrite app_assoc.
      * rewrite IH, (IH []); reflexivity.
Qed.

Lemma replay_loadable (es : list entry) (acc : list message) :
  Forall loadable acc -> Forall loadable (replay es acc).
Proof.
  revert acc; induction es as [|e r IH]; intros acc Hacc; simpl; [assumption|].
  destruct (e_role e) as [role|]; [|assumption].
  destruct (String.eqb role "user").
  - destruct (e_content e) as [c|]; [|assumption].
    apply IH, Forall_app; split; [assumption|]; repeat constructor.
  - destruct (String.eqb role "assistant").
    + destruct (e_content e) as [c|]; [|assumption].
      apply IH, Forall_app; split; [assumption|]; repeat constructor.
    + apply IH; assumption.
Qed.

Lemma replay_save_entries (ms : list message) (acc : list message) :
  Forall loadable ms -> replay (save_entries ms) acc = acc ++ ms.
Proof.
  revert acc; induction ms as [|m r IH]; intros acc Hall; simpl.
  - now rewrite app_nil_r.
  - inversion Hall as [|? ? Hm Hr]; subst.
    destruct m as [c|c|c calls|c i]; simpl in Hm; try contradiction.
    + simpl. rewrite IH by assumption. now rewrite <- app_assoc.
    + destruct calls; [|contradiction]. simpl.
      rewrite IH by assumption. now rewrite <- app_assoc.
Qed.

Lemma load_loadable (file : option (list entry)) :
  Forall loadable (_load_memory file []).
Proof. destruct file; simpl; [apply replay_loadable|]; constructor. Qed.

Lemma apply_op_fields (mm : memory_manager) (op : mem_op) :
  max_length (apply_op mm op) = max_length mm /\
  save_to_file (apply_op mm op) = save_to_file mm /\
  (exists m, loadable m /\ messages (apply_op mm op) = messages mm ++ [m]) /\
  (save_to_file mm = true ->
   memory_file (apply_op mm op) = Some (save_entries (messages (apply_op mm op)))).
Proof.
  destruct op as [s|s]; simpl; unfold add_user_message, add_ai_message,
    append_message; destruct (save_to_file mm); simpl;
    (split; [reflexivity|split; [reflexivity|split]]);
    try solve [eexists; split; [|reflexivity]; exact I];
    intros; try reflexivity; discriminate.
Qed.

Lemma run_ops_fields (ops : list mem_op) (mm : memory_manager) :
  Forall loadable (messages mm) ->
  max_length (run_ops mm ops) = max_length mm /\
  save_to_file (run_ops mm ops) = save_to_file mm /\
  Forall loadable (messages (run_ops mm ops)) /\
  (ops <> [] -> save_to_file mm = true ->
   memory_file (run_ops mm ops) = Some (save_entries (messages (run_ops mm ops)))).
Proof.
  revert mm; induction ops as [|op r IH]; intros mm Hmm; simpl.
  - repeat split; try assumption. intros H; now contradiction H.
  - destruct (apply_op_fields mm op) as (Hml & Hstf & (m & Hm & Hmsg) & Hfile).
    assert (Hl : Forall loadable (messages (apply_op mm op))).
    { rewrite Hmsg; apply Forall_app; split; [assumption|constructor; [assumption|constructor]]. }
    destruct (IH (apply_op mm op) Hl) as (Hml' & Hstf' & Hall' & Hfile').
    unfold run_ops in *; simpl.
    split; [congruence|split; [congruence|split; [assumption|]]].
    intros _ Hs. destruct r as [|op' r'].
    + simpl. apply Hfile, Hs.
    + apply Hfile'; [discriminate|congruence].
Qed.

(** A [get_memory] result is a suffix of the log of length at most
    [2 * max_length], when [max_length >= 1]. *)
Lemma get_memory_suffix (mm : memory_manager) :
  1 <= max_length mm ->
  (length (get_memory mm) <= Z.to_nat (2 * max_length mm))%nat /\
  exists dropped, messages mm = dropped ++ get_memory mm.
Proof.
  intros Hml. unfold get_memory, py_slice_from.
  destruct (Z.of_nat (length (messages mm)) >? max_length mm * 2) eqn:Hgt.
  - apply Z.gtb_lt in Hgt.
    replace (- (max_length mm * 2) <? 0) with true by (symmetry; apply Z.ltb_lt; lia).
    split.
    + rewrite length_skipn. lia.
    + exists (firstn (Z.to_nat (Z.max 0 (Z.of_nat (length (messages mm))
               + - (max_length mm * 2)))) (messages mm)).
      symmetry; apply firstn_skipn.
  - rewrite Z.gtb_ltb in Hgt; apply Z.ltb_ge in Hgt.
    split; [lia|]. exists []; reflexivity.
Qed.

(** ** Counting events *)

Definition is_search_event (ev : event) : bool :=
  match ev with SearchExecuted _ => true | _ => false end.

Definition is_invoke (m : invoke_mode) (ev : event) : bool :=
  match ev, m with
  | Invoked ToolsAuto _, ToolsAuto => true
  | Invoked NoTools _, NoTools => true
  | _, _ => false
  end.

Definition count_searches (tr : list event) : nat :=
  length (filter is_search_event tr).

Definition count_invoked (m : invoke_mode) (tr : list event) : nat :=
  length (filter (is_invoke m) tr).

Lemma count_invoked_cons (m : invoke_mode) (ev : event) (tr : list event) :
  count_invoked m (ev :: tr) = ((if is_invoke m ev then 1 else 0) + count_invoked m tr)%nat.
Proof. unfold count_invoked; simpl; destruct (is_invoke m ev); reflexivity. Qed.

Definition result_ls (r : loop_result) : lstate :=
  match r with
  | LoopRaised _ ls | LoopAnswered _ ls | LoopExhausted ls => ls
  end.

(** The search budget invariant of the loop state. *)
Definition budget_inv (ls : lstate) : Prop :=
  0 <= search_count ls <= max_searches /\
  search_count ls = Z.of_nat (count_searches (trace ls)).

Lemma count_searches_app (a b : list event) :
  count_searches (a ++ b) = (count_searches a + count_searches b)%nat.
Proof. unfold count_searches. now rewrite filter_app, length_app. Qed.

Lemma count_invoked_app (m : invoke_mode) (a b : list event) :
  count_invoked m (a ++ b) = (count_invoked m a + count_invoked m b)%nat.
Proof. unfold count_invoked. now rewrite filter_app, length_app. Qed.







Section Loop.

Variable llm : nat -> list message -> invoke_mode -> llm_outcome.
Variable provider : string -> provider_outcome.
Variable get_current_time : string -> string.
Variable text_tool_regex : string -> option string.

(** One response either changes nothing, or executes one search (within
    budget), or executes one clock query. *)
Lemma scan_tool_calls_step (response : message) (calls : list tool_call)
    (ls : lstate) :
  let '(ls', p) := scan_tool_calls provider get_current_time response calls ls in
  (p = false /\ ls' = ls) \/
  (p = true /\ ncalls ls' = ncalls ls /\ exists q,
     search_count ls < max_searches /\ search_count ls' = search_count ls + 1 /\
     trace ls' = trace ls ++ [SearchExecuted q]) \/
  (p = true /\ ncalls ls' = ncalls ls /\ exists tz,
     search_count ls' = search_count ls /\ trace ls' = trace ls ++ [TimeExecuted tz]).
Proof.
  induction calls as [|tc rest IH]; simpl; [now left|].
  destruct (String.eqb (tc_name tc) "search_web") eqn:Hn;
    destruct (search_count ls <? max_searches) eqn:Hlt; simpl.
  - right; left. split; [reflexivity|split; [reflexivity|]].
    eexists; split; [apply Z.ltb_lt; assumption|split; reflexivity].
  - replace (search_count ls >=? max_searches) with true.
    + now left.
    + symmetry. rewrite Z.geb_leb. apply Z.leb_le. apply Z.ltb_ge in Hlt. lia.
  - destruct (String.eqb (tc_name tc) "get_current_time"); [|exact IH].
    right; right. split; [reflexivity|split; [reflexivity|]].
    eexists; split; reflexivity.
  - destruct (String.eqb (tc_name tc) "get_current_time"); [|exact IH].
    right; right. split; [reflexivity|split; [reflexivity|]].
    eexists; split; reflexivity.
Qed.

Lemma handle_response_step (content : string) (calls : list tool_call)
    (ls : lstate) :
  let '(ls', p) := handle_response provider get_current_time text_tool_regex
                     content calls ls in
  (p = false /\ ls' = ls) \/
  (p = true /\ ncalls ls' = ncalls ls /\ exists q,
     search_count ls < max_searches /\ search_count ls' = search_count ls + 1 /\
     trace ls' = trace ls ++ [SearchExecuted q]) \/
  (p = true /\ ncalls ls' = ncalls ls /\ exists tz,
     search_count ls' = search_count ls /\ trace ls' = trace ls ++ [TimeExecuted tz]).
Proof.
  unfold handle_response. destruct calls as [|tc rest].
  - destruct (search_count ls <? max_searches) eqn:Hlt; simpl; [|now left].
    destruct (py_truthy content); simpl; [|now left].
    destruct (_parse_text_tool_call text_tool_regex content) as [q|]; [|now left].
    destruct (py_truthy q); [|now left].
    right; left. split; [reflexivity|split; [reflexivity|]].
    exists q. split; [apply Z.ltb_lt; assumption|split; reflexivity].
  - apply scan_tool_calls_step.
Qed.

Lemma budget_inv_step (ls ls' : lstate) (p : bool) :
  budget_inv ls ->
  ((p = false /\ ls' = ls) \/
   (p = true /\ ncalls ls' = ncalls ls /\ exists q,
      search_count ls < max_searches /\ search_count ls' = search_count ls + 1 /\
      trace ls' = trace ls ++ [SearchExecuted q]) \/
   (p = true /\ ncalls ls' = ncalls ls /\ exists tz,
      search_count ls' = search_count ls /\ trace ls' = trace ls ++ [TimeExecuted tz])) ->
  budget_inv ls' /\ count_invoked ToolsAuto (trace ls') = count_invoked ToolsAuto (trace ls)
  /\ count_invoked NoTools (trace ls') = count_invoked NoTools (trace ls)
  /\ exists delta, trace ls' = trace ls ++ delta.
Proof.
  unfold budget_inv. intros [Hb Hc] [[_ ->]|[[_ [_ [q [Hlt [Hs Ht]]]]]|[_ [_ [tz [Hs Ht]]]]]].
  - repeat split; try lia. exists []; now rewrite app_nil_r.
  - rewrite Ht, Hs, !count_searches_app, !count_invoked_app.
    change (count_searches [SearchExecuted q]) with 1%nat. simpl.
    repeat split; try lia; eauto.
  - rewrite Ht, Hs, !count_searches_app, !count_invoked_app.
    change (count_searches [TimeExecuted tz]) with 0%nat. simpl.
    repeat split; try lia; eauto.
Qed.

Lemma budget_inv_invoked (ls : lstate) (m : invoke_mode) :
  budget_inv ls -> budget_inv (ls_invoked (ls_next_iteration ls) m).
Proof.
  unfold budget_inv, ls_invoked, ls_next_iteration; simpl.
  intros [Hb Hc]. split; [assumption|].
  rewrite count_searches_app. destruct m; cbn; lia.
Qed.

(** The loop keeps the budget invariant, never calls the model without
    tools, makes at most [fuel] tool-enabled calls and exactly [fuel] of
    them when it runs out of passes. *)
Lemma agent_loop_spec (fuel : nat) (ls : lstate) :
  budget_inv ls ->
  let r := agent_loop llm provider get_current_time text_tool_regex fuel ls in
  budget_inv (result_ls r) /\
  (exists delta, trace (result_ls r) = trace ls ++ delta /\
     count_invoked NoTools delta = O /\
     (count_invoked ToolsAuto delta <= fuel)%nat /\
     match r with
     | LoopExhausted _ => count_invoked ToolsAuto delta = fuel
     | LoopRaised e ls' => exists n ms, llm n ms ToolsAuto = LLMRaises e
     | LoopAnswered c ls' => exists n ms calls, llm n ms ToolsAuto = LLMReturns c calls
     end).
Proof.
  revert ls; induction fuel as [|f IH]; intros ls Hinv; simpl.
  - split; [assumption|]. exists []. rewrite app_nil_r. cbn. repeat split; lia.
  - destruct (llm (ncalls ls) (window ls) ToolsAuto) as [e|c calls] eqn:Hllm.
    + simpl. split; [apply budget_inv_invoked; assumption|].
      exists [Invoked ToolsAuto (search_count ls)]. cbn. repeat split; try lia.
      eauto.
    + assert (Hinv1 : budget_inv (ls_invoked (ls_next_iteration ls) ToolsAuto)).
      { apply budget_inv_invoked; assumption. }
      pose proof (handle_response_step c calls (ls_invoked (ls_next_iteration ls) ToolsAuto)) as Hs.
      destruct (handle_response provider get_current_time text_tool_regex c calls
                  (ls_invoked (ls_next_iteration ls) ToolsAuto)) as [ls2 p] eqn:Hh.
      destruct (budget_inv_step _ _ _ Hinv1 Hs) as (Hinv2 & HA & HN & delta2 & Ht2).
      destruct p.
      * destruct (IH ls2 Hinv2) as (Hinv3 & delta3 & Ht3 & HN3 & HA3 & Hm3).
        split; [assumption|].
        exists (Invoked ToolsAuto (search_count ls) :: delta2 ++ delta3).
        assert (Hd2 : count_invoked NoTools delta2 = O /\ count_invoked ToolsAuto delta2 = O).
        { rewrite Ht2, !count_invoked_app in HA, HN. simpl in HA, HN. lia. }
        split.
        { rewrite Ht3, Ht2. simpl. rewrite <- !app_assoc. reflexivity. }
        rewrite !count_invoked_cons, !count_invoked_app. cbn [is_invoke].
        split; [lia|split; [lia|]].
        destruct (agent_loop llm provider get_current_time text_tool_regex f ls2); lia || exact Hm3.
      * simpl. split; [assumption|].
        exists (Invoked ToolsAuto (search_count ls) :: delta2).
        assert (Hd2 : count_invoked NoTools delta2 = O /\ count_invoked ToolsAuto delta2 = O).
        { rewrite Ht2, !count_invoked_app in HA, HN. simpl in HA, HN. lia. }
        split; [rewrite Ht2; simpl; now rewrite <- app_assoc|].
        rewrite !count_invoked_cons. cbn [is_invoke].
        split; [lia|split; [lia|]]. eauto.
Qed.



End Loop.

Section QueryFacts.

Variable llm : nat -> list message -> invoke_mode -> llm_outcome.
Variable provider : string -> provider_outcome.
Variable get_current_time : string -> string.
Variable text_tool_regex : string -> option string.
Variable SYSTEM_PROMPT : string.

Lemma budget_inv_init (msgs : list message) : budget_inv (mk_ls msgs 0 0 O []).
Proof. unfold budget_inv, max_searches; simpl. lia. Qed.

(** Everything one query does, in one statement. *)
Lemma query_run_spec (mm : memory_manager) (u : string) (mi : Z) :
  let '(mm', e, tr) := query_run llm provider get_current_time text_tool_regex
                         SYSTEM_PROMPT mm u mi in
  (count_searches tr <= 2)%nat /\
  (exists loop_tr tail,
     tr = loop_tr ++ tail /\ count_invoked NoTools loop_tr = O /\
     (count_invoked ToolsAuto loop_tr <= Z.to_nat mi)%nat /\
     (tail = [] \/
      (count_invoked ToolsAuto loop_tr = Z.to_nat mi /\
       exists k, tail = [Invoked NoTools k]))) /\
  match e with
  | EndError d =>
      mm' = add_user_message mm u /\
      exists n ms m, llm n ms m = LLMRaises d
  | EndAnswer c =>
      mm' = add_ai_message (add_user_message mm u) c /\
      exists n ms m calls, llm n ms m = LLMReturns c calls
  end.
Proof.
  unfold query_run. cbv zeta.
  match goal with
  | |- context [agent_loop _ _ _ _ _ ?l] => set (ls0 := l)
  end.
  pose proof (agent_loop_spec llm provider get_current_time text_tool_regex
                (Z.to_nat mi) ls0 (budget_inv_init _)) as [Hinv (delta & Ht & HN & HA & Hm)].
  unfold budget_inv, max_searches in Hinv.
  destruct (agent_loop llm provider get_current_time text_tool_regex (Z.to_nat mi) ls0)
    as [e ls|c ls|ls]; simpl in Ht, Hinv |- *.
  - split; [lia|]. split.
    + exists (trace ls), []. rewrite app_nil_r. rewrite Ht. simpl.
      repeat split; auto.
    + split; [reflexivity|]. destruct Hm as (n & ms & H). eauto.
  - split; [lia|]. split.
    + exists (trace ls), []. rewrite app_nil_r. rewrite Ht. simpl.
      repeat split; auto.
    + split; [reflexivity|]. destruct Hm as (n & ms & calls & H). eauto.
  - destruct (llm (ncalls ls) (window ls) NoTools) as [e|c calls] eqn:Hl.
    + split; [rewrite count_searches_app; cbn; lia|]. split.
      * exists (trace ls), [Invoked NoTools (search_count ls)].
        rewrite Ht. simpl. repeat split; auto. right. split; [assumption|eauto].
      * split; [reflexivity|]. eauto.
    + split; [rewrite count_searches_app; cbn; lia|]. split.
      * exists (trace ls), [Invoked NoTools (search_count ls)].
        rewrite Ht. simpl. repeat split; auto. right. split; [assumption|eauto].
      * split; [reflexivity|]. eauto.
Qed.

End QueryFacts.

(** ** Tool-call selection *)

Definition relevant (tc : tool_call) : bool :=
  String.eqb (tc_name tc) "search_web" || String.eqb (tc_name tc) "get_current_time".

Definition eligible (count : Z) (tc : tool_call) : bool :=
  (String.eqb (tc_name tc) "search_web" && (count <? max_searches))
  || String.eqb (tc_name tc) "get_current_time".

Definition tool_event (tc : tool_call) : event :=
  if String.eqb (tc_name tc) "search_web"
  then SearchExecuted (match tc_query tc with Some q => q | None => "" end)
  else TimeExecuted (match tc_timezone tc with Some z => z | None => "Asia/Shanghai" end).

Lemma scan_tool_calls_first (provider : string -> provider_outcome)
    (get_current_time : string -> string) (response : message)
    (calls : list tool_call) (ls : lstate) :
  match scan_tool_calls provider get_current_time response calls ls with
  | (ls', true) =>
      exists pre c post, calls = pre ++ c :: post /\
        Forall (fun d => relevant d = false) pre /\
        eligible (search_count ls) c = true /\
        trace ls' = trace ls ++ [tool_event c]
  | (ls', false) =>
      ls' = ls /\
      (Forall (fun d => relevant d = false) calls \/
       exists pre c post, calls = pre ++ c :: post /\
         Forall (fun d => relevant d = false) pre /\
         String.eqb (tc_name c) "search_web" = true /\
         max_searches <= search_count ls)
  end.
Proof.
  induction calls as [|tc rest IH]; simpl; [split; [reflexivity|left; constructor]|].
  destruct (String.eqb (tc_name tc) "search_web") eqn:Hn;
    destruct (search_count ls <? max_searches) eqn:Hlt; simpl.
  - exists [], tc, rest. unfold eligible, tool_event. rewrite Hn, Hlt.
    split; [reflexivity|split; [apply Forall_nil|split; reflexivity]].
  - replace (search_count ls >=? max_searches) with true.
    + split; [reflexivity|right]. exists [], tc, rest.
      split; [reflexivity|split; [apply Forall_nil|split; [assumption|apply Z.ltb_ge; assumption]]].
    + symmetry. rewrite Z.geb_leb. apply Z.leb_le. apply Z.ltb_ge in Hlt. lia.
  - destruct (String.eqb (tc_name tc) "get_current_time") eqn:Ht.
    + exists [], tc, rest. unfold eligible, tool_event. rewrite Hn, Ht.
      split; [reflexivity|split; [apply Forall_nil|split; reflexivity]].
    + destruct (scan_tool_calls provider get_current_time response rest ls)
        as [ls' [|]].
      * destruct IH as (pre & c & post & -> & Hpre & He & Htr).
        exists (tc :: pre), c, post. split; [reflexivity|split; [|split; assumption]].
        constructor; [|assumption]. unfold relevant. now rewrite Hn, Ht.
      * destruct IH as [-> [Hall|(pre & c & post & -> & Hpre & Hs & Hle)]].
        -- split; [reflexivity|left]. constructor; [|assumption].
           unfold relevant. now rewrite Hn, Ht.
        -- split; [reflexivity|right]. exists (tc :: pre), c, post.
           split; [reflexivity|split; [|split; assumption]]. constructor; [|assumption].
           unfold relevant. now rewrite Hn, Ht.
  - destruct (String.eqb (tc_name tc) "get_current_time") eqn:Ht.
    + exists [], tc, rest. unfold eligible, tool_event. rewrite Hn, Ht.
      split; [reflexivity|split; [apply Forall_nil|split; reflexivity]].
    + destruct (scan_tool_calls provider get_current_time response rest ls)
        as [ls' [|]].
      * destruct IH as (pre & c & post & -> & Hpre & He & Htr).
        exists (tc :: pre), c, post. split; [reflexivity|split; [|split; assumption]].
        constructor; [|assumption]. unfold relevant. now rewrite Hn, Ht.
      * destruct IH as [-> [Hall|(pre & c & post & -> & Hpre & Hs & Hle)]].
        -- split; [reflexivity|left]. constructor; [|assumption].
           unfold relevant. now rewrite Hn, Ht.
        -- split; [reflexivity|right]. exists (tc :: pre), c, post.
           split; [reflexivity|split; [|split; assumption]]. constructor; [|assumption].
           unfold relevant. now rewrite Hn, Ht.
Qed.

Lemma no_tools_free (l : list event) (m : invoke_mode) (k : Z) :
  count_invoked NoTools l = O -> In (Invoked m k) l -> m = ToolsAuto.
Proof.
  induction l as [|ev r IH]; intros H Hin; [destruct Hin|].
  rewrite count_invoked_cons in H. destruct Hin as [->|Hin].
  - destruct m; [reflexivity|]. simpl in H. lia.
  - apply IH; [lia|assumption].
Qed.

(** ** Concrete model stubs *)

Definition search_call : tool_call :=
  mk_tool_call "search_web" (Some "latest news") None "call_1".

(** A model that requests [search_web] whenever tools are offered and
    answers in prose when they are not. *)
Definition always_search_stub (n : nat) (ms : list message) (m : invoke_mode)
  : llm_outcome :=
  match m with
  | ToolsAuto => LLMReturns "" [search_call]
  | NoTools => LLMReturns "final answer" []
  end.


(** A model that fails on every call. *)
Definition failing_stub (n : nat) (ms : list message) (m : invoke_mode)
  : llm_outcome := LLMRaises "connection refused".

Definition ok_provider (q : string) : provider_outcome := ProviderReturns "results".
Definition fixed_clock (tz : string) : string := "2025-11-01 12:00:00".
Definition no_text_calls (content : string) : option string := None.
Definition fresh_memory : memory_manager := MemoryManager 10 true None.

(** ** Further operations of the memory manager and the agent *)

(** [MemoryManager.clear_memory]: empty the log; with [save_to_file] the
    file is removed if it exists (an absent file stays absent). *)
Definition clear_memory (mm : memory_manager) : memory_manager :=
  {| max_length := max_length mm; save_to_file := save_to_file mm;
     messages := [];
     memory_file := if save_to_file mm then None else memory_file mm |}.

(** The mutating calls of the manager, including [clear_memory]. *)
Inductive mem_cmd := CmdUser (s : string) | CmdAI (s : string) | CmdClear.

Definition apply_cmd (mm : memory_manager) (c : mem_cmd) : memory_manager :=
  match c with
  | CmdUser s => add_user_message mm s
  | CmdAI s => add_ai_message mm s
  | CmdClear => clear_memory mm
  end.

Definition run_cmds (mm : memory_manager) (cs : list mem_cmd) : memory_manager :=
  fold_left apply_cmd cs mm.

(** What a log looks like after [_save_memory] and [_load_memory]. *)
Fixpoint persisted_view (ms : list message) : list message :=
  match ms with
  | [] => []
  | HumanMessage c :: r => HumanMessage c :: persisted_view r
  | AIMessage c _ :: r => AIMessage c [] :: persisted_view r
  | _ :: r => persisted_view r
  end.

(** An entry that [_load_memory] reads without a [KeyError]. *)
Definition entry_ok (e : entry) : bool :=
  match e_role e with
  | None => false
  | Some role =>
      if String.eqb role "user" || String.eqb role "assistant"
      then match e_content e with Some _ => true | None => false end
      else true
  end.

(** One line of [get_context_string]; other message classes give none. *)
Definition context_line (m : message) : option string :=
  match m with
  | HumanMessage c => Some ("User: " ++ c)%string
  | AIMessage c _ => Some ("Assistant: " ++ c)%string
  | _ => None
  end.

(** [sep.join(l)] *)
Fixpoint py_join (sep : string) (l : list string) : string :=
  match l with
  | [] => ""
  | [x] => x
  | x :: r => (x ++ sep ++ py_join sep r)%string
  end.

(** The lines built by the loop over [messages[-6:]]. *)
Definition context_lines (ms : list message) : list string :=
  flat_map (fun m => match context_line m with Some s => [s] | None => [] end)
           (py_slice_from (-6) ms).

(** [MemoryManager.get_context_string], which [SearchAgent.get_memory_summary]
    returns as it is. *)
Definition get_context_string (mm : memory_manager) : string :=
  match get_memory mm with
  | [] => "No conversation history"
  | ms => py_join nl (context_lines ms)
  end.

(** The [messages] list [query] builds before its loop (lines 211-226),
    as [query_run] does. *)
Definition query_messages (SYSTEM_PROMPT : string) (mm : memory_manager)
    (user_input : string) : list message :=
  let chat_history := get_memory mm in
  let mm1 := add_user_message mm user_input in
  let chat_history :=
    if Z.of_nat (length (messages mm)) >? max_length mm * 2
    then chat_history else messages mm1 in
  [SystemMessage SYSTEM_PROMPT] ++ py_slice_from (-6) chat_history
  ++ [HumanMessage user_input].


Definition is_time_event (ev : event) : bool :=
  match ev with TimeExecuted _ => true | _ => false end.

Definition count_times (tr : list event) : nat :=
  length (filter is_time_event tr).

Section Chat.

Variable llm : nat -> list message -> invoke_mode -> llm_outcome.
Variable provider : string -> provider_outcome.
Variable get_current_time : string -> string.
Variable text_tool_regex : string -> option string.
Variable SYSTEM_PROMPT : string.

(** [SearchAgent.chat]: [query] with its default [max_iterations = 5],
    then the response and [len(self.memory_manager.get_memory())]; the
    wall-clock timestamp is left out. *)
Definition chat (mm : memory_manager) (user_input : string)
  : memory_manager * string * Z :=
  let '(mm', response, _) := query llm provider get_current_time text_tool_regex
                               SYSTEM_PROMPT mm user_input 5 in
  (mm', response, Z.of_nat (length (get_memory mm'))).

End Chat.

(** A model that asks for the clock whenever it is offered tools. *)
Definition time_call : tool_call :=
  mk_tool_call "get_current_time" None None "call_t".

Definition always_time_stub (n : nat) (ms : list message) (m : invoke_mode)
  : llm_outcome :=
  match m with
  | ToolsAuto => LLMReturns "" [time_call]
  | NoTools => LLMReturns "final answer" []
  end.

(** * Claims *)

(** C1: within one [query] call the search executor runs at most twice
    (the cap [max_searches = 2]); structured and text-format search
    requests made once the counter is at 2 are not executed. *)
Theorem query_search_budget
    (llm : nat -> list message -> invoke_mode -> llm_outcome)
    (provider : string -> provider_outcome) (get_current_time : string -> string)
    (text_tool_regex : string -> option string) (SYSTEM_PROMPT : string)
    (mm : memory_manager) (u : string) (mi : Z) :
  let '(_, _, tr) := query llm provider get_current_time text_tool_regex
                       SYSTEM_PROMPT mm u mi in
  (count_searches tr <= 2)%nat.
Proof.
  unfold query.
  pose proof (query_run_spec llm provider get_current_time text_tool_regex
                SYSTEM_PROMPT mm u mi) as H.
  destruct (query_run llm provider get_current_time text_tool_regex SYSTEM_PROMPT
              mm u mi) as [[mm' e] tr].
  apply H.
Qed.



(** C3 (code defect): with a model that requests [search_web] whenever it
    is offered tools (empty prose) and answers "final answer" without
    tools, [query] with the default [max_iterations = 5] stops after the
    third loop pass, the first over-budget request, without the final
    tool-less invocation, and returns and persists the empty content. *)
Theorem always_search_stub_stops_early :
  let '(mm', out, tr) := query always_search_stub ok_provider fixed_clock
                           no_text_calls "" fresh_memory "hi" 5 in
  out = "" /\ count_invoked ToolsAuto tr = 3%nat /\
  count_invoked NoTools tr = O /\
  messages mm' = [HumanMessage "hi"; AIMessage "" []].
Proof. vm_compute. repeat split. Qed.



(** C5 (code defect): with [max_length = 0] the window should hold at most
    [2 * 0] messages, but [messages[-0:]] is the whole list, so
    [get_memory] returns the full log. *)
Theorem get_memory_zero_max_length :
  let mm := add_user_message (MemoryManager 0 false None) "hi" in
  get_memory mm = [HumanMessage "hi"] /\
  (length (get_memory mm) > Z.to_nat (2 * max_length mm))%nat.
Proof. vm_compute. split; [reflexivity|constructor]. Qed.

(** C6: persisting and re-hydrating is the identity on the log: after any
    sequence of user/assistant appends, a fresh manager loading the file
    has the same messages and the same [get_memory] window, and no
    [system] entry of the file ever enters the log. *)
Theorem memory_round_trip (ml : Z) (file : option (list entry))
    (ops : list mem_op) :
  let a := run_ops (MemoryManager ml true file) ops in
  let b := MemoryManager ml true (memory_file a) in
  messages b = messages a /\ get_memory b = get_memory a /\
  forallb (fun m => negb (is_system m)) (messages b) = true.
Proof.
  cbv zeta.
  assert (H0 : Forall loadable (messages (MemoryManager ml true file)))
    by apply load_loadable.
  destruct (run_ops_fields ops _ H0) as (Hml & Hstf & Hall & Hfile).
  assert (Hmsg : messages (MemoryManager ml true
                   (memory_file (run_ops (MemoryManager ml true file) ops))) =
                 messages (run_ops (MemoryManager ml true file) ops)).
  { destruct ops as [|op ops'].
    - reflexivity.
    - transitivity (_load_memory (memory_file
        (run_ops (MemoryManager ml true file) (op :: ops'))) []); [reflexivity|].
      rewrite Hfile by (discriminate || reflexivity).
      simpl. now apply replay_save_entries. }
  split; [assumption|split].
  - unfold get_memory. rewrite Hmsg, Hml. reflexivity.
  - rewrite Hmsg. apply forallb_forall. intros m Hin.
    rewrite Forall_forall in Hall. specialize (Hall m Hin).
    destruct m; simpl in Hall |- *; tauto || reflexivity.
Qed.

(** C7: [SearchToolWrapper.search] never raises: it returns the provider's
    text, or "Search error: " followed by the failure detail. *)
Theorem search_never_raises (provider : string -> provider_outcome)
    (q : string) :
  (exists t, provider q = ProviderReturns t /\ search provider q = t) \/
  (exists e, provider q = ProviderRaises e /\
     search provider q = ("Search error: " ++ e)%string /\
     String.prefix "Search error" (search provider q) = true).
Proof.
  unfold search. destruct (provider q) as [t|e]; [left; eauto|right].
  exists e. split; [reflexivity|split; [reflexivity|]]. clear. induction e; reflexivity.
Qed.

(** C8: [query] appends the user message to Memory, and saves it when
    [save_to_file] is set, before anything else; when the model fails,
    Memory ends with exactly that user message. *)
Theorem user_message_recorded_first
    (llm : nat -> list message -> invoke_mode -> llm_outcome)
    (provider : string -> provider_outcome) (get_current_time : string -> string)
    (text_tool_regex : string -> option string) (SYSTEM_PROMPT : string)
    (mm : memory_manager) (u : string) (mi : Z) :
  let '(mm', e, _) := query_run llm provider get_current_time text_tool_regex
                        SYSTEM_PROMPT mm u mi in
  (exists rest, messages mm' = messages mm ++ HumanMessage u :: rest) /\
  memory_file mm' = (if save_to_file mm then Some (save_entries (messages mm'))
                     else memory_file mm) /\
  match e with
  | EndError _ => messages mm' = messages mm ++ [HumanMessage u]
  | EndAnswer _ => True
  end.
Proof.
  pose proof (query_run_spec llm provider get_current_time text_tool_regex
                SYSTEM_PROMPT mm u mi) as H.
  destruct (query_run llm provider get_current_time text_tool_regex SYSTEM_PROMPT
              mm u mi) as [[mm' [c|d]] tr]; destruct H as (_ & _ & -> & _).
  - unfold add_ai_message, add_user_message, append_message.
    destruct (save_to_file mm); simpl;
      (split; [exists [AIMessage c []]; now rewrite <- app_assoc|
               split; [reflexivity|exact I]]).
  - unfold add_user_message, append_message.
    destruct (save_to_file mm); simpl;
      (split; [exists []; reflexivity|split; reflexivity]).
Qed.

(** C9: a [query] that ends with an answer adds exactly two entries to
    Memory, the user message then the final content, however many tools
    ran; the tool exchange stays in the local message window. *)
Theorem query_persists_two_entries
    (llm : nat -> list message -> invoke_mode -> llm_outcome)
    (provider : string -> provider_outcome) (get_current_time : string -> string)
    (text_tool_regex : string -> option string) (SYSTEM_PROMPT : string)
    (mm : memory_manager) (u : string) (mi : Z) :
  let '(mm', e, _) := query_run llm provider get_current_time text_tool_regex
                        SYSTEM_PROMPT mm u mi in
  match e with
  | EndAnswer c =>
      messages mm' = messages mm ++ [HumanMessage u; AIMessage c []] /\
      memory_file mm' = (if save_to_file mm then Some (save_entries (messages mm'))
                         else memory_file mm)
  | EndError _ => True
  end.
Proof.
  pose proof (query_run_spec llm provider get_current_time text_tool_regex
                SYSTEM_PROMPT mm u mi) as H.
  destruct (query_run llm provider get_current_time text_tool_regex SYSTEM_PROMPT
              mm u mi) as [[mm' [c|d]] tr]; destruct H as (_ & _ & -> & _); [|exact I].
  unfold add_ai_message, add_user_message, append_message.
  destruct (save_to_file mm); simpl;
    (split; [now rewrite <- app_assoc|reflexivity]).
Qed.

(** C10: for a response with structured tool calls, at most one tool runs:
    if one runs, it is the first call that is an in-budget [search_web] or
    a [get_current_time], and every call before it is neither tool; if
    none runs, the state is unchanged and either no call names a tool or
    the first call naming one is a [search_web] with the budget used up. *)
Theorem one_tool_per_response (provider : string -> provider_outcome)
    (get_current_time : string -> string) (text_tool_regex : string -> option string)
    (content : string) (tc : tool_call) (rest : list tool_call) (ls : lstate) :
  match handle_response provider get_current_time text_tool_regex content
          (tc :: rest) ls with
  | (ls', true) =>
      exists pre c post, tc :: rest = pre ++ c :: post /\
        Forall (fun d => relevant d = false) pre /\
        eligible (search_count ls) c = true /\
        trace ls' = trace ls ++ [tool_event c]
  | (ls', false) =>
      ls' = ls /\
      (Forall (fun d => relevant d = false) (tc :: rest) \/
       exists pre c post, tc :: rest = pre ++ c :: post /\
         Forall (fun d => relevant d = false) pre /\
         String.eqb (tc_name c) "search_web" = true /\
         max_searches <= search_count ls)
  end.
Proof. apply scan_tool_calls_first. Qed.

(** * Further properties of the memory manager and the agent *)

Lemma replay_persisted_view (ms acc : list message) :
  replay (save_entries ms) acc = acc ++ persisted_view ms.
Proof.
  revert acc; induction ms as [|m r IH]; intros acc; simpl.
  - now rewrite app_nil_r.
  - destruct m as [c|c|c calls|c i]; simpl.
    + rewrite IH. reflexivity.
    + rewrite IH. now rewrite <- app_assoc.
    + rewrite IH. now rewrite <- app_assoc.
    + apply IH.
Qed.

Lemma forall_get_memory (P : message -> Prop) (mm : memory_manager) :
  Forall P (messages mm) -> Forall P (get_memory mm).
Proof.
  intros H. unfold get_memory, py_slice_from.
  assert (Hs : forall n, Forall P (skipn n (messages mm))).
  { intros n. rewrite <- (firstn_skipn n (messages mm)) in H.
    apply Forall_app in H; apply H. }
  destruct (_ >? _); [|assumption]. destruct (_ <? 0); apply Hs.
Qed.

Lemma get_memory_length (mm : memory_manager) :
  1 <= max_length mm ->
  length (get_memory mm) = Nat.min (length (messages mm)) (Z.to_nat (2 * max_length mm)).
Proof.
  intros Hml. unfold get_memory, py_slice_from.
  destruct (Z.of_nat (length (messages mm)) >? max_length mm * 2) eqn:Hgt.
  - apply Z.gtb_lt in Hgt.
    replace (- (max_length mm * 2) <? 0) with true by (symmetry; apply Z.ltb_lt; lia).
    rewrite length_skipn. lia.
  - rewrite Z.gtb_ltb in Hgt; apply Z.ltb_ge in Hgt. lia.
Qed.

Lemma append_message_messages (mm : memory_manager) (m : message) :
  messages (append_message mm m) = messages mm ++ [m] /\
  max_length (append_message mm m) = max_length mm.
Proof. unfold append_message; destruct (save_to_file mm); split; reflexivity. Qed.

Lemma context_lines_length (ms : list message) :
  Forall loadable ms -> length (context_lines ms) = Nat.min 6 (length ms).
Proof.
  intros H. unfold context_lines, py_slice_from.
  replace (-6 <? 0) with true by reflexivity.
  rewrite <- (firstn_skipn (Z.to_nat (Z.max 0 (Z.of_nat (length ms) + -6))) ms) in H.
  apply Forall_app in H as [_ H].
  assert (Hl : forall l, Forall loadable l ->
    length (flat_map (fun m => match context_line m with Some s => [s] | None => [] end) l)
    = length l).
  { induction l as [|m r IH]; intros Hf; [reflexivity|].
    inversion Hf as [|? ? Hm Hr]; subst.
    destruct m as [c|c|c calls|c i]; simpl in Hm |- *; try contradiction;
      rewrite IH by assumption; reflexivity. }
  rewrite Hl by assumption. rewrite length_skipn. lia.
Qed.

Section LoopTime.

Variable llm : nat -> list message -> invoke_mode -> llm_outcome.
Variable provider : string -> provider_outcome.
Variable get_current_time : string -> string.
Variable text_tool_regex : string -> option string.
Variables (c : string) (tc : tool_call) (rest : list tool_call).
Hypothesis Htc : tc_name tc = "get_current_time".
Hypothesis Hllm : forall n ms, llm n ms ToolsAuto = LLMReturns c (tc :: rest).

Lemma time_only_loop (fuel : nat) (ls : lstate) :
  exists ls', agent_loop llm provider get_current_time text_tool_regex fuel ls
              = LoopExhausted ls' /\
    exists delta, trace ls' = trace ls ++ delta /\
      count_invoked ToolsAuto delta = fuel /\ count_invoked NoTools delta = O /\
      count_searches delta = O /\ count_times delta = fuel.
Proof.
  revert ls; induction fuel as [|f IH]; intros ls; simpl.
  - eexists; split; [reflexivity|]. exists []. rewrite app_nil_r. repeat split.
  - rewrite Hllm. unfold handle_response. simpl scan_tool_calls. rewrite Htc. simpl.
    match goal with |- context [agent_loop _ _ _ _ f ?l] => destruct (IH l) as (ls' & Hr & delta & Ht & HA & HN & HS & HT) end.
    rewrite Hr. eexists; split; [reflexivity|].
    match goal with H : trace ls' = trace ?l ++ delta |- _ =>
      simpl in H; rewrite <- !app_assoc in H; simpl in H end.
    eexists; split; [exact Ht|].
    rewrite !count_invoked_cons. unfold count_searches, count_times in *. simpl.
    cbn [is_invoke]. repeat split; lia.
Qed.

End LoopTime.

(** X1: [clear_memory] empties the window and the summary falls back to
    the "no history" sentinel; with [save_to_file] the file is gone, so a
    restarted manager also starts empty. *)
Theorem clear_memory_empties (mm : memory_manager) :
  get_memory (clear_memory mm) = [] /\
  get_context_string (clear_memory mm) = "No conversation history" /\
  messages (MemoryManager (max_length mm) true (memory_file (clear_memory mm))) =
    (if save_to_file mm then [] else _load_memory (memory_file mm) []).
Proof.
  unfold clear_memory, get_context_string, get_memory, py_slice_from; simpl.
  destruct (0 >? max_length mm * 2), (- (max_length mm * 2) <? 0),
    (save_to_file mm); repeat split; try reflexivity;
    destruct (Z.to_nat _); reflexivity.
Qed.

(** X2: with [save_to_file], after any sequence of [add_user_message],
    [add_ai_message] and [clear_memory] calls, a manager restarted from
    the file holds exactly the current log. *)
Theorem reload_matches_log (ml : Z) (file : option (list entry))
    (cmds : list mem_cmd) :
  let a := run_cmds (MemoryManager ml true file) cmds in
  messages (MemoryManager ml true (memory_file a)) = messages a.
Proof.
  cbv zeta. unfold run_cmds.
  assert (Hstep : forall mm cmd, save_to_file mm = true ->
    Forall loadable (messages mm) ->
    save_to_file (apply_cmd mm cmd) = true /\
    Forall loadable (messages (apply_cmd mm cmd)) /\
    _load_memory (memory_file (apply_cmd mm cmd)) [] = messages (apply_cmd mm cmd)).
  { intros mm cmd Hs Hl.
    assert (Hadd : forall m, loadable m ->
      Forall loadable (messages mm ++ [m]) /\
      _load_memory (Some (save_entries (messages mm ++ [m]))) [] = messages mm ++ [m]).
    { intros m Hm. assert (Hf : Forall loadable (messages mm ++ [m]))
        by (apply Forall_app; split; [assumption|repeat constructor; assumption]).
      split; [assumption|]. simpl. rewrite replay_save_entries by exact Hf. reflexivity. }
    destruct cmd as [s0|s0|]; simpl;
      unfold add_user_message, add_ai_message, append_message, clear_memory;
      rewrite Hs; simpl.
    - destruct (Hadd (HumanMessage s0) I). repeat split; assumption.
    - destruct (Hadd (AIMessage s0 []) I). repeat split; assumption.
    - repeat split; constructor. }
  assert (Hgen : forall mm, save_to_file mm = true ->
    Forall loadable (messages mm) ->
    _load_memory (memory_file mm) [] = messages mm ->
    _load_memory (memory_file (fold_left apply_cmd cmds mm)) [] =
    messages (fold_left apply_cmd cmds mm)).
  { induction cmds as [|cmd r IH]; intros mm Hs Hl Hr; simpl; [assumption|].
    destruct (Hstep mm cmd Hs Hl) as (Hs' & Hl' & Hr'). apply IH; assumption. }
  apply Hgen; [reflexivity|apply load_loadable|reflexivity].
Qed.

(** X3: saving a log and loading it back keeps the user and assistant
    messages in order, drops system and tool messages, and drops the tool
    calls carried by assistant messages. *)
Theorem save_then_load_view (ms : list message) :
  _load_memory (Some (save_entries ms)) [] = persisted_view ms.
Proof. simpl. apply replay_persisted_view. Qed.

(** X4: after well-formed entries, loading stops at an entry lacking its
    [role] key, or a user/assistant entry lacking its [content] key: what
    was read before it is kept, nothing after it is read.  An entry with
    any other role is skipped, with or without a [content] key, and
    loading goes on after it. *)
Theorem load_stops_at_malformed (pre : list entry) (e : entry)
    (post : list entry) :
  forallb entry_ok pre = true ->
  (entry_ok e = false ->
   _load_memory (Some (pre ++ e :: post)) [] = _load_memory (Some pre) []) /\
  (forall role, e_role e = Some role -> role <> "user" -> role <> "assistant" ->
   _load_memory (Some (pre ++ e :: post)) [] = _load_memory (Some (pre ++ post)) []).
Proof.
  simpl. generalize (@nil message) as acc.
  induction pre as [|e0 r IH]; intros acc Hpre; simpl in Hpre |- *.
  - split.
    + intros Hbad. unfold entry_ok in Hbad.
      destruct (e_role e) as [role|]; [|reflexivity].
      destruct (String.eqb role "user"), (String.eqb role "assistant"); simpl in Hbad;
        try discriminate; destruct (e_content e); try discriminate; reflexivity.
    + intros role Hr Hu Ha. rewrite Hr.
      apply String.eqb_neq in Hu, Ha. rewrite Hu, Ha. reflexivity.
  - apply andb_true_iff in Hpre as [He Hr]. unfold entry_ok in He.
    destruct (e_role e0) as [role|]; [|discriminate].
    destruct (String.eqb role "user"); simpl in He.
    + destruct (e_content e0); [|discriminate]. apply IH; assumption.
    + destruct (String.eqb role "assistant"); simpl in He.
      * destruct (e_content e0); [|discriminate]. apply IH; assumption.
      * apply IH; assumption.
Qed.

Lemma load_stops_at_malformed_witness :
  forallb entry_ok [mk_entry (Some "user") (Some "hi")] = true /\
  (entry_ok (mk_entry (Some "system") None) = false ->
   _load_memory (Some ([mk_entry (Some "user") (Some "hi")] ++
                       mk_entry (Some "system") None :: [mk_entry (Some "assistant") (Some "yo")])) [] =
   _load_memory (Some [mk_entry (Some "user") (Some "hi")]) []) /\
  (forall role, e_role (mk_entry (Some "system") None) = Some role ->
   role <> "user" -> role <> "assistant" ->
   _load_memory (Some ([mk_entry (Some "user") (Some "hi")] ++
                       mk_entry (Some "system") None :: [mk_entry (Some "assistant") (Some "yo")])) [] =
   _load_memory (Some ([mk_entry (Some "user") (Some "hi")] ++
                       [mk_entry (Some "assistant") (Some "yo")])) []).
Proof.
  assert (H : forallb entry_ok [mk_entry (Some "user") (Some "hi")] = true) by reflexivity.
  split; [exact H|]. apply load_stops_at_malformed, H.
Defined.

(** X5: for [max_length >= 1], [get_memory] is the most recent part of the
    log, of length [min(len(log), 2 * max_length)]. *)
Theorem get_memory_recent_suffix (mm : memory_manager) :
  1 <= max_length mm ->
  (exists dropped, messages mm = dropped ++ get_memory mm) /\
  length (get_memory mm) = Nat.min (length (messages mm)) (Z.to_nat (2 * max_length mm)).
Proof.
  intros Hml. split; [apply get_memory_suffix, Hml|apply get_memory_length, Hml].
Qed.

Lemma get_memory_recent_suffix_witness :
  1 <= max_length (mk_mm 1 false [HumanMessage "a"; AIMessage "b" []; HumanMessage "c"] None) /\
  (exists dropped, messages (mk_mm 1 false [HumanMessage "a"; AIMessage "b" []; HumanMessage "c"] None)
     = dropped ++ get_memory (mk_mm 1 false [HumanMessage "a"; AIMessage "b" []; HumanMessage "c"] None)) /\
  length (get_memory (mk_mm 1 false [HumanMessage "a"; AIMessage "b" []; HumanMessage "c"] None)) =
  Nat.min (length (messages (mk_mm 1 false [HumanMessage "a"; AIMessage "b" []; HumanMessage "c"] None)))
          (Z.to_nat (2 * max_length (mk_mm 1 false [HumanMessage "a"; AIMessage "b" []; HumanMessage "c"] None))).
Proof.
  split; [simpl; lia|].
  apply get_memory_recent_suffix. simpl; lia.
Defined.

Lemma forall_py_slice_from {A} (P : A -> Prop) (i : Z) (l : list A) :
  Forall P l -> Forall P (py_slice_from i l).
Proof.
  intros H. unfold py_slice_from.
  assert (Hs : forall n, Forall P (skipn n l)).
  { intros n. rewrite <- (firstn_skipn n l) in H. apply Forall_app in H; apply H. }
  destruct (i <? 0); apply Hs.
Qed.

(** X6: for a log of user/assistant messages, the summary is the "No
    conversation history" sentinel exactly when the window is empty, and
    otherwise has one line per message of the last 6 of the window. *)
Theorem context_string_summary (mm : memory_manager) :
  Forall loadable (messages mm) ->
  (get_context_string mm = "No conversation history" <-> get_memory mm = []) /\
  length (context_lines (get_memory mm)) = Nat.min 6 (length (get_memory mm)).
Proof.
  intros H. pose proof (forall_get_memory _ _ H) as Hw.
  split; [|apply context_lines_length, Hw].
  unfold get_context_string. destruct (get_memory mm) as [|m r] eqn:E;
    [split; reflexivity|].
  split; [|discriminate]. intros Heq; exfalso.
  pose proof (context_lines_length _ Hw) as Hlen.
  pose proof (forall_py_slice_from _ (-6) _ Hw) as Hsl.
  unfold context_lines in Heq, Hlen.
  destruct (py_slice_from (-6) (m :: r)) as [|m' l'];
    [simpl in Hlen; lia|].
  inversion Hsl as [|? ? Hm' _]; subst.
  destruct m' as [c|c|c calls|c i]; simpl in Hm'; try contradiction;
    [|destruct calls; [|contradiction]]; simpl in Heq;
    destruct (flat_map _ l'); discriminate.
Qed.

Lemma context_string_summary_witness :
  Forall loadable (messages (add_user_message fresh_memory "hi")) /\
  (get_context_string (add_user_message fresh_memory "hi") = "No conversation history"
     <-> get_memory (add_user_message fresh_memory "hi") = []) /\
  length (context_lines (get_memory (add_user_message fresh_memory "hi"))) =
    Nat.min 6 (length (get_memory (add_user_message fresh_memory "hi"))).
Proof.
  assert (H : Forall loadable (messages (add_user_message fresh_memory "hi")))
    by (simpl; repeat constructor).
  split; [exact H|]. apply context_string_summary, H.
Defined.

(** X7: for [max_length >= 1] (at [max_length = 0] the window is the
    whole log, see C5), [SearchAgent.chat] reports as [memory_length] the
    window size after the query: [min(len(log) + 2, 2 * max_length)] when the query
    answered, [min(len(log) + 1, 2 * max_length)] when the model failed. *)
Theorem chat_memory_length
    (llm : nat -> list message -> invoke_mode -> llm_outcome)
    (provider : string -> provider_outcome) (get_current_time : string -> string)
    (text_tool_regex : string -> option string) (SYSTEM_PROMPT : string)
    (mm : memory_manager) (u : string) :
  1 <= max_length mm ->
  let '(_, e, _) := query_run llm provider get_current_time text_tool_regex
                      SYSTEM_PROMPT mm u 5 in
  snd (chat llm provider get_current_time text_tool_regex SYSTEM_PROMPT mm u) =
  Z.of_nat (Nat.min (length (messages mm) +
                     match e with EndAnswer _ => 2 | EndError _ => 1 end)
                    (Z.to_nat (2 * max_length mm))).
Proof.
  intros Hml. unfold chat, query.
  pose proof (query_run_spec llm provider get_current_time text_tool_regex
                SYSTEM_PROMPT mm u 5) as H.
  destruct (query_run llm provider get_current_time text_tool_regex SYSTEM_PROMPT
              mm u 5) as [[mm' e] tr].
  destruct H as (_ & _ & Hm). simpl.
  unfold add_ai_message, add_user_message in Hm.
  destruct (append_message_messages mm (HumanMessage u)) as [Hm1 Hl1].
  destruct e as [c|d]; destruct Hm as [-> _].
  - destruct (append_message_messages (append_message mm (HumanMessage u)) (AIMessage c []))
      as [Hm2 Hl2].
    rewrite get_memory_length by (rewrite Hl2, Hl1; exact Hml).
    rewrite Hm2, Hm1, Hl2, Hl1, !length_app. simpl. f_equal. lia.
  - rewrite get_memory_length by (rewrite Hl1; exact Hml).
    rewrite Hm1, Hl1, length_app. reflexivity.
Qed.

Lemma chat_memory_length_witness :
  1 <= max_length fresh_memory /\
  (let '(_, e, _) := query_run always_search_stub ok_provider fixed_clock
                       no_text_calls "" fresh_memory "hi" 5 in
   snd (chat always_search_stub ok_provider fixed_clock no_text_calls "" fresh_memory "hi") =
   Z.of_nat (Nat.min (length (messages fresh_memory) +
                      match e with EndAnswer _ => 2 | EndError _ => 1 end)
                     (Z.to_nat (2 * max_length fresh_memory)))).
Proof.
  assert (H : 1 <= max_length fresh_memory) by (simpl; lia).
  split; [exact H|]. apply (chat_memory_length always_search_stub ok_provider
    fixed_clock no_text_calls "" fresh_memory "hi" H).
Defined.

(** X8: with [max_iterations <= 0] the [while] loop never runs: the
    model is called once, without tools, on the initial message list,
    and that single call decides the answer or the apology. *)
Theorem query_no_iterations
    (llm : nat -> list message -> invoke_mode -> llm_outcome)
    (provider : string -> provider_outcome) (get_current_time : string -> string)
    (text_tool_regex : string -> option string) (SYSTEM_PROMPT : string)
    (mm : memory_manager) (u : string) (mi : Z) :
  mi <= 0 ->
  query_run llm provider get_current_time text_tool_regex SYSTEM_PROMPT mm u mi =
  match llm O (query_messages SYSTEM_PROMPT mm u) NoTools with
  | LLMRaises d => (add_user_message mm u, EndError d, [Invoked NoTools 0])
  | LLMReturns c _ =>
      (add_ai_message (add_user_message mm u) c, EndAnswer c, [Invoked NoTools 0])
  end.
Proof.
  intros Hmi. unfold query_run. cbv zeta.
  replace (Z.to_nat mi) with O by lia.
  cbn [agent_loop window ncalls trace search_count app].
  unfold query_messages. destruct (llm _ _ NoTools); reflexivity.
Qed.

Lemma query_no_iterations_witness :
  0 <= 0 /\
  query_run always_search_stub ok_provider fixed_clock no_text_calls "" fresh_memory "hi" 0 =
  match always_search_stub O (query_messages "" fresh_memory "hi") NoTools with
  | LLMRaises d => (add_user_message fresh_memory "hi", EndError d, [Invoked NoTools 0])
  | LLMReturns c _ =>
      (add_ai_message (add_user_message fresh_memory "hi") c, EndAnswer c,
       [Invoked NoTools 0])
  end.
Proof.
  split; [lia|].
  apply (query_no_iterations always_search_stub ok_provider fixed_clock no_text_calls
           "" fresh_memory "hi" 0). lia.
Defined.

(** X9: one [query] invokes the model at most [max_iterations + 1] times
    in all, and at most once without tools. *)
Theorem query_model_calls_bound
    (llm : nat -> list message -> invoke_mode -> llm_outcome)
    (provider : string -> provider_outcome) (get_current_time : string -> string)
    (text_tool_regex : string -> option string) (SYSTEM_PROMPT : string)
    (mm : memory_manager) (u : string) (mi : Z) :
  let '(_, _, tr) := query_run llm provider get_current_time text_tool_regex
                       SYSTEM_PROMPT mm u mi in
  (count_invoked ToolsAuto tr + count_invoked NoTools tr <= Z.to_nat mi + 1)%nat /\
  (count_invoked NoTools tr <= 1)%nat.
Proof.
  pose proof (query_run_spec llm provider get_current_time text_tool_regex
                SYSTEM_PROMPT mm u mi) as H.
  destruct (query_run llm provider get_current_time text_tool_regex SYSTEM_PROMPT
              mm u mi) as [[mm' e] tr].
  destruct H as (_ & (loop_tr & tail & -> & HN & HA & Ht) & _).
  rewrite !count_invoked_app.
  destruct Ht as [->|(HA' & k & ->)]; cbn; lia.
Qed.

(** X10: requests for the clock are not counted against the search
    budget and do not end the loop: a model that asks for the time on
    every tool-enabled call runs through all [max_iterations] passes, the
    clock tool runs once per pass, no search runs, and the answer comes
    from the one final call without tools. *)
Theorem time_requests_not_budgeted
    (llm : nat -> list message -> invoke_mode -> llm_outcome)
    (provider : string -> provider_outcome) (get_current_time : string -> string)
    (text_tool_regex : string -> option string) (SYSTEM_PROMPT : string)
    (mm : memory_manager) (u : string) (mi : Z)
    (c : string) (tc : tool_call) (rest : list tool_call) :
  tc_name tc = "get_current_time" ->
  (forall n ms, llm n ms ToolsAuto = LLMReturns c (tc :: rest)) ->
  let '(_, _, tr) := query_run llm provider get_current_time text_tool_regex
                       SYSTEM_PROMPT mm u mi in
  count_invoked ToolsAuto tr = Z.to_nat mi /\ count_invoked NoTools tr = 1%nat /\
  count_searches tr = O /\ count_times tr = Z.to_nat mi.
Proof.
  intros Htc Hllm. unfold query_run. cbv zeta.
  match goal with
  | |- context [agent_loop _ _ _ _ ?f ?l] =>
      destruct (time_only_loop llm provider get_current_time text_tool_regex
                  c tc rest Htc Hllm f l) as (ls' & Hr & delta & Ht & HA & HN & HS & HT)
  end.
  rewrite Hr. simpl in Ht.
  destruct (llm (ncalls ls') (window ls') NoTools); rewrite Ht;
    unfold count_times in *; rewrite !count_invoked_app, !count_searches_app,
    filter_app, length_app; cbn; lia.
Qed.

Lemma time_requests_not_budgeted_witness :
  tc_name time_call = "get_current_time" /\
  (forall n ms, always_time_stub n ms ToolsAuto = LLMReturns "" (time_call :: [])) /\
  (let '(_, _, tr) := query_run always_time_stub ok_provider fixed_clock no_text_calls
                       "" fresh_memory "hi" 3 in
   count_invoked ToolsAuto tr = Z.to_nat 3 /\ count_invoked NoTools tr = 1%nat /\
   count_searches tr = O /\ count_times tr = Z.to_nat 3).
Proof.
  assert (H1 : tc_name time_call = "get_current_time") by reflexivity.
  assert (H2 : forall n ms, always_time_stub n ms ToolsAuto = LLMReturns "" (time_call :: []))
    by reflexivity.
  split; [exact H1|split; [exact H2|]].
  exact (time_requests_not_budgeted always_time_stub ok_provider fixed_clock no_text_calls
           "" fresh_memory "hi" 3 "" time_call [] H1 H2).
Defined.

Lemma py_slice_from_snoc {A} (i : Z) (l : list A) (x : A) :
  i < 0 -> exists pre, py_slice_from i (l ++ [x]) = pre ++ [x].
Proof.
  intros Hi. unfold py_slice_from.
  replace (i <? 0) with true by lia.
  rewrite skipn_app, length_app. simpl length.
  replace (Z.to_nat (Z.max 0 (Z.of_nat (length l + 1) + i)) - length l)%nat with O by lia.
  eexists; reflexivity.
Qed.

(** X11: while the log is within [2 * max_length], [get_memory] hands
    back the log itself, which then also receives the new user message;
    so the list [query] sends to the model ends with the user's question
    twice, and the first (tool-enabled) call is made on exactly that list:
    if it fails, the query ends in the apology after that one call. *)
Theorem first_call_sees_question_twice
    (llm : nat -> list message -> invoke_mode -> llm_outcome)
    (provider : string -> provider_outcome) (get_current_time : string -> string)
    (text_tool_regex : string -> option string) (SYSTEM_PROMPT : string)
    (mm : memory_manager) (u : string) (mi : Z) :
  Z.of_nat (length (messages mm)) <= max_length mm * 2 ->
  1 <= mi ->
  (exists pre, query_messages SYSTEM_PROMPT mm u = pre ++ [HumanMessage u; HumanMessage u]) /\
  (forall d, llm O (query_messages SYSTEM_PROMPT mm u) ToolsAuto = LLMRaises d ->
   query_run llm provider get_current_time text_tool_regex SYSTEM_PROMPT mm u mi =
   (add_user_message mm u, EndError d, [Invoked ToolsAuto 0])).
Proof.
  intros Hlen Hmi. split.
  - unfold query_messages. cbv zeta.
    replace (Z.of_nat (length (messages mm)) >? max_length mm * 2) with false by lia.
    unfold add_user_message. rewrite (proj1 (append_message_messages mm (HumanMessage u))).
    destruct (py_slice_from_snoc (-6) (messages mm) (HumanMessage u)) as [pre Hp]; [lia|].
    rewrite Hp. exists (SystemMessage SYSTEM_PROMPT :: pre).
    simpl. rewrite <- app_assoc. reflexivity.
  - intros d Hd. unfold query_run. cbv zeta.
    destruct (Z.to_nat mi) as [|f] eqn:Ef; [lia|].
    cbn [agent_loop ls_next_iteration window ncalls].
    unfold query_messages in Hd. cbv zeta in Hd. rewrite Hd. reflexivity.
Qed.

Lemma first_call_sees_question_twice_witness :
  Z.of_nat (length (messages fresh_memory)) <= max_length fresh_memory * 2 /\
  1 <= 5 /\
  (exists pre, query_messages "" fresh_memory "hi" =
               pre ++ [HumanMessage "hi"; HumanMessage "hi"]) /\
  (forall d, failing_stub O (query_messages "" fresh_memory "hi") ToolsAuto = LLMRaises d ->
   query_run failing_stub ok_provider fixed_clock no_text_calls "" fresh_memory "hi" 5 =
   (add_user_message fresh_memory "hi", EndError d, [Invoked ToolsAuto 0])).
Proof.
  assert (H1 : Z.of_nat (length (messages fresh_memory)) <= max_length fresh_memory * 2)
    by (vm_compute; discriminate).
  assert (H2 : 1 <= 5) by lia.
  split; [exact H1|split; [exact H2|]].
  exact (first_call_sees_question_twice failing_stub ok_provider fixed_clock no_text_calls
           "" fresh_memory "hi" 5 H1 H2).
Defined.
